(** * Card-printing pipeline: normalisation, duplicate detection, export

    A shallow embedding of the normalisation and de-duplication core of the
    [cards] package ([cards/utils.py], [cards/address.py],
    [cards/processing.py]) together with the properties stated about it.

    Conventions of the embedding.
    - Python [str] is [string]; the built-in string methods are modelled on
      the list of characters.  The alphabet is ASCII: characters above 127
      are kept as uncased, non-blank, non-digit symbols.
    - Python [dict] objects whose iteration order is observable (rows,
      payloads) are association lists updated in place; lookup tables are
      [gmap]s.
    - [Optional[str]] is [option string]; Python truthiness is written out.
    - The similarity ratio of [difflib], the clock functions of [datetime]
      and the ZIP data file are parameters of the sections that use them;
      floating-point scores are idealised as rationals. *)

From Stdlib Require Import Ascii String QArith.
From stdpp Require Import gmap strings list fin_maps sorting.

Local Open Scope string_scope.
Local Open Scope list_scope.

(** ** Characters *)

Module Char.

Definition code (c : ascii) : nat := nat_of_ascii c.

Definition between (lo hi : nat) (c : ascii) : bool :=
  (lo <=? code c)%nat && (code c <=? hi)%nat.

(** [str.isspace] on one ASCII character: TAB, LF, VT, FF, CR, the four
    separators FS, GS, RS, US, and the space. *)
Definition is_space (c : ascii) : bool :=
  between 9 13 c || between 28 31 c || between 32 32 c.

Definition is_digit (c : ascii) : bool := between 48 57 c.
Definition is_upper (c : ascii) : bool := between 65 90 c.
Definition is_lower (c : ascii) : bool := between 97 122 c.
Definition is_cased (c : ascii) : bool := is_upper c || is_lower c.

Definition lower (c : ascii) : ascii :=
  if is_upper c then ascii_of_nat (code c + 32) else c.
Definition upper (c : ascii) : ascii :=
  if is_lower c then ascii_of_nat (code c - 32) else c.

Definition comma : ascii := ","%char.
Definition newline : ascii := ascii_of_nat 10.

Definition is_comma (c : ascii) : bool := bool_decide (c = comma).
Definition not_comma (c : ascii) : bool := negb (is_comma c).
(** [.] of [re] without DOTALL: anything but a line feed. *)
Definition is_dot (c : ascii) : bool := negb (bool_decide (c = newline)).
Definition not_space (c : ascii) : bool := negb (is_space c).

End Char.

(** ** Built-in string methods, on character lists *)

Module Chars.

Definition lower (l : list ascii) : list ascii := Char.lower <$> l.
Definition upper (l : list ascii) : list ascii := Char.upper <$> l.

(** [str.title]: a character following a cased character is lower-cased,
    any other one is upper-cased. *)
Fixpoint title_go (prev_cased : bool) (l : list ascii) : list ascii :=
  match l with
  | [] => []
  | c :: l' =>
      (if prev_cased then Char.lower c else Char.upper c)
        :: title_go (Char.is_cased c) l'
  end.
Definition title (l : list ascii) : list ascii := title_go false l.

Fixpoint lstrip (p : ascii -> bool) (l : list ascii) : list ascii :=
  match l with
  | [] => []
  | c :: l' => if p c then lstrip p l' else l
  end.
Fixpoint rstrip (p : ascii -> bool) (l : list ascii) : list ascii :=
  match l with
  | [] => []
  | c :: l' =>
      match rstrip p l' with
      | [] => if p c then [] else [c]
      | r => c :: r
      end
  end.
(** [str.strip(chars)] for the character set [p]. *)
Definition strip (p : ascii -> bool) (l : list ascii) : list ascii :=
  rstrip p (lstrip p l).

(** [re.split(r"\s+", s)]: the pieces between maximal blank runs, empty
    pieces at both ends included.  [insep] tells that the previous
    character was blank. *)
Fixpoint re_split_ws (insep : bool) (l : list ascii) : list (list ascii) :=
  match l with
  | [] => [[]]
  | c :: l' =>
      if Char.is_space c then
        if insep then re_split_ws true l' else [] :: re_split_ws true l'
      else
        match re_split_ws false l' with
        | t :: ts => (c :: t) :: ts
        | [] => [[c]]
        end
  end.

Definition nonempty (t : list ascii) : bool :=
  match t with [] => false | _ => true end.

(** [str.split()] without argument: the non-empty pieces. *)
Definition split (l : list ascii) : list (list ascii) :=
  filter (fun t => nonempty t = true) (re_split_ws false l).

(** [sep.join(parts)] *)
Fixpoint join (sep : list ascii) (parts : list (list ascii)) : list ascii :=
  match parts with
  | [] => []
  | [t] => t
  | t :: ts => t ++ sep ++ join sep ts
  end.

End Chars.

(** ** The same methods on [string] *)

Definition chars (s : string) : list ascii := list_ascii_of_string s.
Definition str (l : list ascii) : string := string_of_list_ascii l.

Definition punct_comma_dot (c : ascii) : bool :=
  bool_decide (c = ","%char) || bool_decide (c = "."%char).

Definition py_lower (s : string) : string := str (Chars.lower (chars s)).
Definition py_upper (s : string) : string := str (Chars.upper (chars s)).
Definition py_title (s : string) : string := str (Chars.title (chars s)).
Definition py_strip (s : string) : string :=
  str (Chars.strip Char.is_space (chars s)).
Definition py_strip_comma_dot (s : string) : string :=
  str (Chars.strip punct_comma_dot (chars s)).
Definition py_split (s : string) : list string :=
  str <$> Chars.split (chars s).
Definition py_re_split_ws (s : string) : list string :=
  str <$> Chars.re_split_ws false (chars s).
Definition py_join (sep : string) (parts : list string) : string :=
  str (Chars.join (chars sep) (chars <$> parts)).

(** Truthiness of a [str] and of an [Optional[str]]. *)
Definition truthy (s : string) : bool := negb (bool_decide (s = "")).
Definition truthy_opt (o : option string) : bool :=
  match o with Some s => truthy s | None => false end.

(** ** A backtracking matcher for the regular expressions of the package

    The patterns of the package only repeat character classes, so the
    syntax below has the repetitions of a class, the greedy optional
    group, sequencing, named groups and the two anchors.  [exec] explores
    the alternatives in the order of Python's [re]: a greedy repetition
    tries the longest run first and gives characters back one at a time,
    an optional group is tried before it is skipped. *)

Module Re.

Inductive regex : Type :=
| Class (p : ascii -> bool)
| Star (p : ascii -> bool)
| Plus (p : ascii -> bool)
| Rep (n : nat) (p : ascii -> bool)
| AtLeast (n : nat) (p : ascii -> bool)
| Opt (r : regex)
| Seq (r1 r2 : regex)
| Group (name : string) (r : regex)
| Bol
| Eol.

(** Captured groups, the most recent binding first. *)
Definition captures : Type := list (string * string).

(** A continuation receives the position reached, the text still to
    read and the groups bound so far. *)
Definition cont : Type := nat -> list ascii -> captures -> option captures.

Fixpoint star (p : ascii -> bool) (pos : nat) (l : list ascii)
    (caps : captures) (k : cont) : option captures :=
  match l with
  | c :: l' =>
      if p c then
        match star p (S pos) l' caps k with
        | Some r => Some r
        | None => k pos l caps
        end
      else k pos l caps
  | [] => k pos l caps
  end.

Fixpoint rep (n : nat) (p : ascii -> bool) (pos : nat) (l : list ascii)
    (caps : captures) (k : cont) : option captures :=
  match n with
  | O => k pos l caps
  | S n' =>
      match l with
      | c :: l' => if p c then rep n' p (S pos) l' caps k else None
      | [] => None
      end
  end.

(** [$] without MULTILINE: the end of the text, or just before a line
    feed that ends the text. *)
Definition at_eol (l : list ascii) : bool :=
  match l with
  | [] => true
  | [c] => bool_decide (c = Char.newline)
  | _ => false
  end.

Fixpoint exec (r : regex) (pos : nat) (l : list ascii) (caps : captures)
    (k : cont) : option captures :=
  match r with
  | Class p => rep 1 p pos l caps k
  | Star p => star p pos l caps k
  | Plus p => rep 1 p pos l caps (fun pos' l' caps' => star p pos' l' caps' k)
  | Rep n p => rep n p pos l caps k
  | AtLeast n p =>
      rep n p pos l caps (fun pos' l' caps' => star p pos' l' caps' k)
  | Opt r' =>
      match exec r' pos l caps k with
      | Some res => Some res
      | None => k pos l caps
      end
  | Seq r1 r2 =>
      exec r1 pos l caps (fun pos' l' caps' => exec r2 pos' l' caps' k)
  | Group name r' =>
      exec r' pos l caps
        (fun pos' l' caps' => k pos' l' ((name, str (take (pos' - pos) l)) :: caps'))
  | Bol => if (pos =? 0)%nat then k pos l caps else None
  | Eol => if at_eol l then k pos l caps else None
  end.

Definition accept : cont := fun _ _ caps => Some caps.

(** [pattern.match(s)]: a match that starts at the first character. *)
Definition match_ (r : regex) (s : string) : option captures :=
  exec r 0 (chars s) [] accept.

Fixpoint search_from (r : regex) (pos : nat) (l : list ascii)
    : option captures :=
  match exec r pos l [] accept with
  | Some res => Some res
  | None =>
      match l with
      | [] => None
      | _ :: l' => search_from r (S pos) l'
      end
  end.

(** [pattern.search(s)]: the leftmost match. *)
Definition search (r : regex) (s : string) : option captures :=
  search_from r 0 (chars s).

(** [m.group(name)]; [None] for a group that took no part in the match. *)
Fixpoint group (caps : captures) (name : string) : option string :=
  match caps with
  | [] => None
  | (n, v) :: caps' => if bool_decide (n = name) then Some v else group caps' name
  end.

End Re.

(** ** cards/address.py *)

Definition ABBREVIATIONS : gmap string string :=
  list_to_map
    [ ("st", "Street"); ("ave", "Avenue"); ("blvd", "Boulevard");
      ("dr", "Drive"); ("ln", "Lane"); ("pl", "Place"); ("rd", "Road");
      ("hwy", "Highway"); ("pkwy", "Parkway"); ("ct", "Court");
      ("cir", "Circle"); ("trl", "Trail"); ("way", "Way") ].

Definition STATE_ABBREVS : gmap string string :=
  list_to_map
    [ ("alabama", "AL"); ("alaska", "AK"); ("arizona", "AZ");
      ("arkansas", "AR"); ("california", "CA"); ("colorado", "CO");
      ("connecticut", "CT"); ("delaware", "DE"); ("florida", "FL");
      ("georgia", "GA"); ("hawaii", "HI"); ("idaho", "ID");
      ("illinois", "IL"); ("indiana", "IN"); ("iowa", "IA");
      ("kansas", "KS"); ("kentucky", "KY"); ("louisiana", "LA");
      ("maine", "ME"); ("maryland", "MD"); ("massachusetts", "MA");
      ("michigan", "MI"); ("minnesota", "MN"); ("mississippi", "MS");
      ("missouri", "MO"); ("montana", "MT"); ("nebraska", "NE");
      ("nevada", "NV"); ("new hampshire", "NH"); ("new jersey", "NJ");
      ("new mexico", "NM"); ("new york", "NY"); ("north carolina", "NC");
      ("north dakota", "ND"); ("ohio", "OH"); ("oklahoma", "OK");
      ("oregon", "OR"); ("pennsylvania", "PA"); ("rhode island", "RI");
      ("south carolina", "SC"); ("south dakota", "SD");
      ("tennessee", "TN"); ("texas", "TX"); ("utah", "UT");
      ("vermont", "VT"); ("virginia", "VA"); ("washington", "WA");
      ("west virginia", "WV"); ("wisconsin", "WI"); ("wyoming", "WY") ].

Definition USPS_STATES : gset string := map_img STATE_ABBREVS.

(** [^(?P<zip5>\d{5})(?:[- ]?(?P<zip4>\d{4}))?$] *)
Definition zip_separator (c : ascii) : bool :=
  bool_decide (c = "-"%char) || bool_decide (c = " "%char).

Definition ZIP_RE : Re.regex :=
  Re.Seq Re.Bol
    (Re.Seq (Re.Group "zip5" (Re.Rep 5 Char.is_digit))
       (Re.Seq
          (Re.Opt
             (Re.Seq (Re.Opt (Re.Class zip_separator))
                (Re.Group "zip4" (Re.Rep 4 Char.is_digit))))
          Re.Eol)).

Record AddressValidationResult : Type := {
  avr_address : string;
  avr_city : string;
  avr_state : string;
  avr_zip5 : string;
  avr_zip4 : option string;
  avr_inferred : bool;
  avr_reasons : list string
}.

Definition normalize_token (token : string) : string :=
  let lower := py_strip_comma_dot (py_lower token) in
  match ABBREVIATIONS !! lower with
  | Some full => full
  | None => py_title token
  end.

Definition normalize_address (address : string) : string :=
  let tokens := py_re_split_ws (py_strip address) in
  py_join " " (normalize_token <$> tokens).

Definition normalize_state (state : string) : string * list string :=
  let state := py_strip state in
  if (String.length state =? 2)%nat && bool_decide (py_upper state ∈ USPS_STATES)
  then (py_upper state, [])
  else
    let normalized := py_lower state in
    match STATE_ABBREVS !! normalized with
    | Some code => (code, ["state_name_converted"])
    | None => (py_upper state, ["invalid_state"])
    end.

Definition normalize_zip (zip_code : string)
    : option string * option string * list string :=
  if negb (truthy zip_code) then (None, None, ["missing_zip"])
  else
    match Re.match_ ZIP_RE (py_strip zip_code) with
    | None => (None, None, ["invalid_zip"])
    | Some m => (Re.group m "zip5", Re.group m "zip4", [])
    end.

Definition normalize_city (city : string) : string := py_title (py_strip city).

(** ** Python values, dictionaries and sorting *)

(** The values a cell of a row or a field of a payload can hold:
    a [str] or [None]. *)
Inductive pyval : Type :=
| VStr (s : string)
| VNone.

Global Instance pyval_eq_dec : EqDecision pyval.
Proof. solve_decision. Defined.

(** [str(v)] *)
Definition py_str (v : pyval) : string :=
  match v with VStr s => s | VNone => "None" end.

Definition val_of_opt (o : option string) : pyval :=
  match o with Some s => VStr s | None => VNone end.

(** A [dict] with string keys, in insertion order. *)
Definition dict : Type := list (string * pyval).

Fixpoint dict_get (d : dict) (k : string) : option pyval :=
  match d with
  | [] => None
  | (k', v) :: d' => if bool_decide (k' = k) then Some v else dict_get d' k
  end.

(** [d[k] = v]: an existing key keeps its place, a new key goes last. *)
Fixpoint dict_set (d : dict) (k : string) (v : pyval) : dict :=
  match d with
  | [] => [(k, v)]
  | (k', v') :: d' =>
      if bool_decide (k' = k) then (k, v) :: d' else (k', v') :: dict_set d' k v
  end.

Definition dict_keys (d : dict) : list string := fst <$> d.

Section Sorted.
Context {A K : Type} (key : A -> K) (leb : K -> K -> bool).

Fixpoint insert_sorted (x : A) (l : list A) : list A :=
  match l with
  | [] => [x]
  | y :: l' =>
      if leb (key x) (key y) then x :: l else y :: insert_sorted x l'
  end.

(** [sorted(l, key=key)]: the stable sort; an element goes in front of
    the later elements whose key is not smaller. *)
Definition py_sorted (l : list A) : list A := foldr insert_sorted [] l.
End Sorted.

(** [sorted(set(l))] for a list of strings. *)
Definition py_sorted_set (l : list string) : list string :=
  py_sorted id String.leb (remove_dups l).

(** Comparison of 2-tuples of strings. *)
Definition pair_leb (a b : string * string) : bool :=
  if bool_decide (a.1 = b.1) then String.leb a.2 b.2 else String.leb a.1 b.1.

(** ** cards/address.py, continued: validation against the ZIP table *)

Section Address.

(** The table read from [data/zipcodes.csv] by [load_zip_db]. *)
Variable zip_db : gmap string (string * string).

Definition infer_city_state_from_zip (zip5 : string) : option (string * string) :=
  zip_db !! zip5.

Definition validate_and_normalize_address
    (address : string) (city state zip_code : option string)
    : AddressValidationResult :=
  let normalized_address := normalize_address address in
  let '(zip5, zip4, zip_reasons) := normalize_zip (default "" zip_code) in
  let reasons := zip_reasons in
  let normalized_city :=
    if truthy_opt city then normalize_city (default "" city) else "" in
  let normalized_state := py_strip (default "" state) in
  let '(normalized_state, reasons) :=
    if truthy normalized_state then
      let '(code, state_reasons) := normalize_state normalized_state in
      (code, reasons ++ state_reasons)
    else ("", reasons ++ ["missing_state"]) in
  let '(normalized_city, normalized_state, reasons) :=
    if negb (truthy normalized_city) && truthy_opt zip5 then
      match infer_city_state_from_zip (default "" zip5) with
      | Some (inferred_city, inferred_state) =>
          let '(normalized_state, reasons) :=
            if negb (truthy normalized_state) then (inferred_state, reasons)
            else if bool_decide (normalized_state ≠ inferred_state)
                 then (normalized_state, reasons ++ ["zip_state_mismatch"])
                 else (normalized_state, reasons) in
          (inferred_city, normalized_state,
           reasons ++ ["inferred_city_state_from_zip"])
      | None => (normalized_city, normalized_state, reasons ++ ["zip_not_found"])
      end
    else if negb (truthy normalized_city) then
      (normalized_city, normalized_state, reasons ++ ["missing_city"])
    else (normalize_city normalized_city, normalized_state, reasons) in
  let '(normalized_state, reasons) :=
    if negb (truthy normalized_state) && truthy_opt zip5 then
      match infer_city_state_from_zip (default "" zip5) with
      | Some (_, inferred_state) =>
          (inferred_state, reasons ++ ["inferred_state_from_zip"])
      | None => (normalized_state, reasons)
      end
    else (normalized_state, reasons) in
  let reasons :=
    if negb (truthy normalized_state) then reasons ++ ["missing_state"]
    else reasons in
  {| avr_address := normalized_address;
     avr_city := normalized_city;
     avr_state := normalized_state;
     avr_zip5 := default "" zip5;
     avr_zip4 := zip4;
     avr_inferred :=
       bool_decide ("inferred_city_state_from_zip" ∈ reasons)
       || bool_decide ("inferred_state_from_zip" ∈ reasons);
     avr_reasons := py_sorted_set (filter (fun r => truthy r = true) reasons) |}.

End Address.

(** ** cards/utils.py *)

(** [^(?P<last>[^,]+),\s*(?P<first>[^,]+)(?:,?\s*(?P<middle>.+))?$] *)
Definition NAME_COMMA_RE : Re.regex :=
  Re.Seq Re.Bol
    (Re.Seq (Re.Group "last" (Re.Plus Char.not_comma))
       (Re.Seq (Re.Class Char.is_comma)
          (Re.Seq (Re.Star Char.is_space)
             (Re.Seq (Re.Group "first" (Re.Plus Char.not_comma))
                (Re.Seq
                   (Re.Opt
                      (Re.Seq (Re.Opt (Re.Class Char.is_comma))
                         (Re.Seq (Re.Star Char.is_space)
                            (Re.Group "middle" (Re.Plus Char.is_dot)))))
                   Re.Eol))))).

(** [(\d{6,})] *)
Definition HEALLY_ID_RE : Re.regex := Re.Group "1" (Re.AtLeast 6 Char.is_digit).

Definition DATETIME_FORMATS : list string :=
  [ "%Y-%m-%d %H:%M:%S"; "%Y-%m-%d %H:%M"; "%Y-%m-%d";
    "%m/%d/%Y %H:%M:%S"; "%m/%d/%Y %H:%M"; "%m/%d/%Y";
    "%Y/%m/%d %H:%M:%S"; "%Y/%m/%d %H:%M"; "%Y/%m/%d";
    "%m-%d-%Y %H:%M:%S"; "%m-%d-%Y %H:%M"; "%m-%d-%Y" ].

Definition normalize_name (name : string) : string * list string :=
  let name := py_strip name in
  if negb (truthy name) then ("", ["missing_name"])
  else
    match Re.match_ NAME_COMMA_RE name with
    | Some m =>
        let first := py_title (default "" (Re.group m "first")) in
        let last := py_title (default "" (Re.group m "last")) in
        let middle := Re.group m "middle" in
        let parts :=
          [first]
          ++ (if truthy_opt middle
              then [py_join " " (py_title <$> py_split (default "" middle))]
              else [])
          ++ [last] in
        (py_join " " parts, ["name_flipped"])
    | None => (py_join " " (py_title <$> py_split name), [])
    end.

Definition str_values (raw : dict) : list string :=
  omap (fun kv => match kv.2 with VStr s => Some s | VNone => None end) raw.

Definition extract_heally (link : pyval) (raw : dict)
    : string * option string * list string :=
  let from_raw :=
    let search_space := py_join " " (str_values raw) in
    match Re.search HEALLY_ID_RE search_space with
    | Some m =>
        let heally_id := default "" (Re.group m "1") in
        ("https://getheally.com/super_admin/patient_users/" +:+ heally_id,
         Some heally_id, ["constructed_heally_link"])
    | None => ("N/A", None, ["missing_heally_link"])
    end in
  match link with
  | VStr l =>
      if truthy l && truthy (py_strip l) then
        let link := py_strip l in
        let heally_id :=
          match Re.search HEALLY_ID_RE link with
          | Some m => Re.group m "1"
          | None => None
          end in
        (link, heally_id, [])
      else from_raw
  | VNone => from_raw
  end.

(** ** cards/config.py *)

Record Settings : Type := {
  timezone : string;
  fuzzy_threshold : Q
}.

Definition default_settings : Settings :=
  {| timezone := "America/Los_Angeles"; fuzzy_threshold := 0.92 |}.

(** ** cards/header_mapping.py: the result record *)

Record HeaderMappingResult : Type := {
  hm_mapping : gmap string string;
  hm_missing : list string;
  hm_extras : list string
}.

(** ** cards/utils.py and cards/processing.py: records and the pipeline *)

(** What the pipeline takes from outside the package: naive date-times
    with [datetime.strptime] ([None] when it raises), the round trip
    through [ZoneInfo] ([None] when it raises) and [strftime];
    [SequenceMatcher(None, a, b).ratio()]; and the table that [load_zip_db]
    reads from [data/zipcodes.csv]. *)
Class Externals : Type := {
  datetime : Type;
  strptime : string -> string -> option datetime;
  localize : string -> datetime -> option datetime;
  strftime : datetime -> string -> string;
  seq_ratio : string -> string -> Q;
  load_zip_db : gmap string (string * string)
}.

Section Pipeline.

Context `{Externals}.

Record NormalizedEntry : Type := {
  name : string;
  clinic_name : string;
  address : string;
  city : string;
  state : string;
  zip_code : string;
  heally_link : string;
  heally_id : option string;
  date_time : option datetime;
  list_source : string;
  raw : dict;
  normalized_payload : dict;
  validation_status : string;
  uncertainty_reasons : list string
}.

Definition with_payload (e : NormalizedEntry) (p : dict) : NormalizedEntry :=
  {| name := name e; clinic_name := clinic_name e; address := address e;
     city := city e; state := state e; zip_code := zip_code e;
     heally_link := heally_link e; heally_id := heally_id e;
     date_time := date_time e; list_source := list_source e; raw := raw e;
     normalized_payload := p;
     validation_status := validation_status e;
     uncertainty_reasons := uncertainty_reasons e |}.

Definition with_list_source (e : NormalizedEntry) (src : string) : NormalizedEntry :=
  {| name := name e; clinic_name := clinic_name e; address := address e;
     city := city e; state := state e; zip_code := zip_code e;
     heally_link := heally_link e; heally_id := heally_id e;
     date_time := date_time e; list_source := src; raw := raw e;
     normalized_payload := normalized_payload e;
     validation_status := validation_status e;
     uncertainty_reasons := uncertainty_reasons e |}.

(** [entry.normalized_payload[k] = v] *)
Definition payload_set (e : NormalizedEntry) (k : string) (v : string) : NormalizedEntry :=
  with_payload e (dict_set (normalized_payload e) k (VStr v)).

(** [entry.normalized_payload.get("duplicate") == "Yes"] *)
Definition is_duplicate (e : NormalizedEntry) : bool :=
  bool_decide (dict_get (normalized_payload e) "duplicate" = Some (VStr "Yes")).

Definition parse_datetime (value : option string) (tz : string)
    : option datetime * list string :=
  if negb (truthy_opt value) then (None, ["missing_datetime"])
  else
    let text := py_strip (default "" value) in
    match list_find (fun fmt => is_Some (strptime text fmt)) DATETIME_FORMATS with
    | None => (None, ["invalid_datetime"])
    | Some (_, fmt) =>
        match strptime text fmt with
        | None => (None, ["invalid_datetime"])
        | Some parsed =>
            match localize tz parsed with
            | Some local => (Some local, [])
            | None => (Some parsed, ["timezone_error"])
            end
        end
    end.

Definition format_datetime (dt : option datetime) : string :=
  match dt with
  | None => ""
  | Some d => strftime d "%Y-%m-%d %H:%M:%S"
  end.

Definition Key : Type := string * string * string * string * string.

Definition normalized_key (entry : NormalizedEntry) : Key :=
  (py_lower (name entry), py_lower (address entry), py_lower (city entry),
   py_lower (state entry), zip_code entry).

Definition _ratio (left right : string) : Q :=
  if negb (truthy left) && negb (truthy right) then 1
  else seq_ratio (py_lower left) (py_lower right).

Definition fuzzy_match_score (a b : NormalizedEntry) : Q :=
  let name_score := _ratio (name a) (name b) in
  let address_score := _ratio (address a) (address b) in
  (name_score + address_score) / 2.

(** *** DataProcessor *)

(** An element of [existing_entries_cache]. *)
Record CachedEntry : Type := {
  ce_entry : NormalizedEntry;
  ce_entry_id : option Z
}.

Record DataProcessor : Type := {
  settings : Settings;
  existing_entries_cache : list CachedEntry
}.

(** The records of a batch are objects that the passes update in place;
    the batch is the list of their current states and a record is
    referred to by its position.  A matched record is either a cached
    record of the history or another record of the batch. *)
Inductive matched_ref : Type :=
| MatchedHistory (c : CachedEntry)
| MatchedBatch (j : nat).

Record DuplicateReport : Type := {
  dr_entry : nat;
  dr_rule : string;
  dr_score : Q;
  dr_matched : matched_ref;
  dr_matched_entry_id : option Z
}.

(** The field of a row selected by a mapped column:
    [str(raw.get(field, "")) if field else ""]. *)
Definition field_text (raw : dict) (field : option string) : string :=
  if truthy_opt field
  then py_str (default (VStr "") (dict_get raw (default "" field)))
  else "".

(** [raw.get(field) if field else None] *)
Definition field_value (raw : dict) (field : option string) : pyval :=
  if truthy_opt field
  then default VNone (dict_get raw (default "" field))
  else VNone.

Definition list_source_of (list_type : string) : string :=
  if bool_decide (list_type = "new_visit") then "New Visit" else "Reprint".

(** The body of the loop of [normalize_rows], for one row. *)
Definition normalize_row (self : DataProcessor) (list_type : string)
    (mapping : gmap string string) (raw : dict) : NormalizedEntry :=
  let tz := timezone (settings self) in
  let name_field := mapping !! "name" in
  let address_field := mapping !! "address" in
  let city_field := mapping !! "city" in
  let state_field := mapping !! "state" in
  let zip_field := mapping !! "zip" in
  let clinic_field := mapping !! "clinic_name" in
  let date_field := mapping !! "date_time" in
  let heally_field := mapping !! "heally_link" in
  let name := field_text raw name_field in
  let address := field_text raw address_field in
  let city := field_text raw city_field in
  let state := field_text raw state_field in
  let zip_code := field_text raw zip_field in
  let clinic_name := field_text raw clinic_field in
  let date_value := field_value raw date_field in
  let heally_value := field_value raw heally_field in
  let '(normalized_name, name_reasons) := normalize_name name in
  let address_result :=
    validate_and_normalize_address load_zip_db address
      (Some city) (Some state) (Some zip_code) in
  let '(heally_link, heally_id, heally_reasons) :=
    extract_heally heally_value raw in
  let '(date_time, date_reasons) :=
    parse_datetime
      (match date_value with VNone => None | v => Some (py_str v) end) tz in
  let reasons :=
    name_reasons ++ avr_reasons address_result ++ heally_reasons
      ++ date_reasons in
  let validation_status :=
    match reasons with [] => "ok" | _ => "attention" end in
  let '(validation_status, reasons) :=
    if negb (truthy normalized_name) || negb (truthy (avr_address address_result))
    then ("rejected", reasons ++ ["missing_core_fields"])
    else (validation_status, reasons) in
  let clinic := if truthy clinic_name then py_title clinic_name else "" in
  {| name := normalized_name;
     clinic_name := clinic;
     address := avr_address address_result;
     city := avr_city address_result;
     state := avr_state address_result;
     zip_code :=
       if truthy_opt (avr_zip4 address_result)
       then py_join "-"
              (filter (fun t => truthy t = true)
                 [avr_zip5 address_result; default "" (avr_zip4 address_result)])
       else avr_zip5 address_result;
     heally_link := heally_link;
     heally_id := heally_id;
     date_time := date_time;
     list_source := list_source_of list_type;
     raw := raw;
     normalized_payload :=
       [ ("name", VStr normalized_name);
         ("clinic_name", VStr clinic);
         ("address", VStr (avr_address address_result));
         ("city", VStr (avr_city address_result));
         ("state", VStr (avr_state address_result));
         ("zip", VStr (avr_zip5 address_result));
         ("zip4", val_of_opt (avr_zip4 address_result));
         ("heally_link", VStr heally_link);
         ("heally_id", val_of_opt heally_id);
         ("date_time", VStr (format_datetime date_time));
         ("list_source", VStr (list_source_of list_type)) ];
     validation_status := validation_status;
     uncertainty_reasons := py_sorted_set reasons |}.

Definition normalize_rows (self : DataProcessor) (rows : list dict)
    (list_type : string) (header_mapping : HeaderMappingResult)
    : list NormalizedEntry * gmap string (list string) :=
  let issues :=
    match hm_missing header_mapping with
    | [] => ∅
    | missing => {[ "missing_columns" := missing ]}
    end in
  (normalize_row self list_type (hm_mapping header_mapping) <$> rows, issues).

(** [{normalized_key(item["entry"]): item for item in cache}]: a later
    record of the history replaces an earlier one with the same key. *)
Definition existing_index (cache : list CachedEntry) : gmap Key CachedEntry :=
  foldl (fun m item => <[normalized_key (ce_entry item) := item]> m) ∅ cache.

Definition report (i : nat) (rule : string) (score : Q) (matched : matched_ref)
    (matched_id : option Z) : DuplicateReport :=
  {| dr_entry := i; dr_rule := rule; dr_score := score;
     dr_matched := matched; dr_matched_entry_id := matched_id |}.

(** [other.heally_id and other.heally_id == entry.heally_id] *)
Definition same_heally_id (entry other : NormalizedEntry) : bool :=
  truthy_opt (heally_id other) && bool_decide (heally_id other = heally_id entry).

(** [score >= self.settings.fuzzy_threshold] *)
Definition fuzzy_hit (self : DataProcessor) (entry other : NormalizedEntry) : bool :=
  Qle_bool (fuzzy_threshold (settings self)) (fuzzy_match_score entry other).

(** The body of the loop of [detect_duplicates] for the record at
    position [i]: the reports it appends and the record afterwards. *)
Definition detect_one (self : DataProcessor) (existing : gmap Key CachedEntry)
    (i : nat) (entry : NormalizedEntry)
    : list DuplicateReport * NormalizedEntry :=
  let cache := existing_entries_cache self in
  match existing !! normalized_key entry with
  | Some matched =>
      ([report i "exact_key" 1 (MatchedHistory matched) (ce_entry_id matched)],
       payload_set entry "duplicate" "Yes")
  | None =>
      let '(by_id, entry) :=
        if truthy_opt (heally_id entry) then
          match find (fun cached => same_heally_id entry (ce_entry cached)) cache with
          | Some cached =>
              ([report i "heally_id" 1 (MatchedHistory cached) (ce_entry_id cached)],
               payload_set entry "duplicate" "Yes")
          | None => ([], entry)
          end
        else ([], entry) in
      if is_duplicate entry then (by_id, entry)
      else
        let '(by_fuzzy, entry) :=
          match find (fun cached => fuzzy_hit self entry (ce_entry cached)) cache with
          | Some cached =>
              ([report i "fuzzy" (fuzzy_match_score entry (ce_entry cached))
                  (MatchedHistory cached) (ce_entry_id cached)],
               payload_set entry "duplicate" "Yes")
          | None => ([], entry)
          end in
        (by_id ++ by_fuzzy,
         if is_duplicate entry then entry else payload_set entry "duplicate" "No")
  end.

Definition detect_duplicates (self : DataProcessor) (entries : list NormalizedEntry)
    : list DuplicateReport * list NormalizedEntry :=
  let existing := existing_index (existing_entries_cache self) in
  let results := imap (detect_one self existing) entries in
  (concat (fst <$> results), snd <$> results).

(** The three tests made on a pair of records of the batch. *)
Definition batch_rule (self : DataProcessor) (entry other : NormalizedEntry)
    : option (string * Q) :=
  if bool_decide (normalized_key entry = normalized_key other)
  then Some ("exact_key_batch", 1%Q)
  else if truthy_opt (heally_id entry) && truthy_opt (heally_id other)
          && bool_decide (heally_id entry = heally_id other)
  then Some ("heally_id_batch", 1%Q)
  else
    let score := fuzzy_match_score entry other in
    if Qle_bool (fuzzy_threshold (settings self)) score
    then Some ("fuzzy_batch", score)
    else None.

(** The inner loop: the first seen record, in order, that one of the
    tests accepts. *)
Fixpoint scan_seen (self : DataProcessor) (batch : list NormalizedEntry)
    (entry : NormalizedEntry) (seen : list nat) : option (nat * string * Q) :=
  match seen with
  | [] => None
  | j :: seen' =>
      match batch !! j with
      | None => scan_seen self batch entry seen'
      | Some other =>
          match batch_rule self entry other with
          | Some (rule, score) => Some (j, rule, score)
          | None => scan_seen self batch entry seen'
          end
      end
  end.

Definition promote (e : NormalizedEntry) : NormalizedEntry :=
  with_list_source
    (payload_set (payload_set e "duplicate" "Yes") "list_source" "Both Lists")
    "Both Lists".

Definition update_at (i : nat) (f : NormalizedEntry -> NormalizedEntry)
    (batch : list NormalizedEntry) : list NormalizedEntry :=
  alter f i batch.

(** One turn of the outer loop of [deduplicate_within_batch]: the record
    at position [i] against the records at positions [0 .. i-1]. *)
Definition dedup_step (self : DataProcessor)
    (st : list DuplicateReport * list NormalizedEntry) (i : nat)
    : list DuplicateReport * list NormalizedEntry :=
  let '(duplicates, batch) := st in
  match batch !! i with
  | None => st
  | Some entry =>
      match scan_seen self batch entry (seq 0 i) with
      | Some (j, rule, score) =>
          (duplicates ++ [report i rule score (MatchedBatch j) None],
           update_at i promote (update_at j promote batch))
      | None =>
          (duplicates,
           if is_duplicate entry then batch
           else update_at i (fun e => payload_set e "duplicate" "No") batch)
      end
  end.

Definition deduplicate_within_batch (self : DataProcessor)
    (entries : list NormalizedEntry)
    : list DuplicateReport * list NormalizedEntry :=
  foldl (dedup_step self) ([], entries) (seq 0 (length entries)).

(** *** process *)

(** A row handed to [INSERT INTO entries]. *)
Record EntryRow : Type := {
  er_list_source : string;
  er_date_time_local : option string;
  er_raw_payload : dict;
  er_normalized_payload : dict;
  er_validation_status : string;
  er_uncertainty_reasons : list string
}.

(** A row handed to [INSERT INTO duplicate_matches]. *)
Record MatchRow : Type := {
  mr_entry_id : option Z;
  mr_matched_entry_id : option Z;
  mr_rule : string;
  mr_score : Q
}.

Record ProcessingReport : Type := {
  normalized_entries : list NormalizedEntry;
  header_mapping : HeaderMappingResult;
  issues : gmap string (list string);
  duplicate_reports : list (string * Q * string * string);
  summary : list (string * nat);
  batch_id : Z
}.

Definition entry_row (entry : NormalizedEntry) : EntryRow :=
  {| er_list_source := list_source entry;
     er_date_time_local :=
       match date_time entry with
       | Some d => Some (format_datetime (Some d))
       | None => None
       end;
     er_raw_payload := raw entry;
     er_normalized_payload := normalized_payload entry;
     er_validation_status := validation_status entry;
     er_uncertainty_reasons := uncertainty_reasons entry |}.

(** The loop after the two passes: a duplicate that was not promoted
    takes the list source of its payload. *)
Definition settle_list_source (entry : NormalizedEntry) : NormalizedEntry :=
  if is_duplicate entry && negb (bool_decide (list_source entry = "Both Lists"))
  then
    with_list_source entry
      (match dict_get (normalized_payload entry) "list_source" with
       | Some v => py_str v
       | None => list_source entry
       end)
  else entry.

(** [not matched_id]: [None] and [0] are false. *)
Definition truthy_id (o : option Z) : bool :=
  match o with Some z => negb (z =? 0)%Z | None => false end.

Definition matched_name (combined : list NormalizedEntry) (m : matched_ref) : string :=
  match m with
  | MatchedHistory c => name (ce_entry c)
  | MatchedBatch j => from_option name "" (combined !! j)
  end.

Section Process.

(** What the store answers: the identifier of the new batch and the
    identifier of the row inserted for the record at each position. *)
Variable store_batch_id : Z.
Variable store_row_id : nat -> Z.

Definition match_row (d : DuplicateReport) : MatchRow :=
  let entry_id := Some (store_row_id (dr_entry d)) in
  let matched_id :=
    if truthy_id (dr_matched_entry_id d) then dr_matched_entry_id d
    else
      match dr_matched d with
      | MatchedBatch j => Some (store_row_id j)
      | MatchedHistory _ => None
      end in
  {| mr_entry_id := entry_id; mr_matched_entry_id := matched_id;
     mr_rule := dr_rule d; mr_score := dr_score d |}.

(** [process]: the report, the rows written in the transaction and the
    processor with its cache extended. *)
Definition process (self : DataProcessor) (new_visit_df reprint_df : list dict)
    (new_visit_mapping reprint_mapping : HeaderMappingResult)
    : ProcessingReport * (list EntryRow * list MatchRow) * DataProcessor :=
  let '(new_entries, new_issues) :=
    normalize_rows self new_visit_df "new_visit" new_visit_mapping in
  let '(re_entries, re_issues) :=
    normalize_rows self reprint_df "reprint" reprint_mapping in
  let combined := new_entries ++ re_entries in
  let '(cross_duplicates, combined) := detect_duplicates self combined in
  let '(batch_duplicates, combined) := deduplicate_within_batch self combined in
  let duplicate_reports_raw := cross_duplicates ++ batch_duplicates in
  let combined := settle_list_source <$> combined in
  let summary :=
    [ ("new_visits", length new_entries);
      ("reprints", length re_entries);
      ("combined_total", length combined);
      ("duplicates", length (filter (fun e => is_duplicate e = true) combined)) ] in
  let issues := union_with (fun a b => Some (a ++ b)) new_issues re_issues in
  let entry_rows := entry_row <$> combined in
  let match_rows := match_row <$> duplicate_reports_raw in
  let appended :=
    omap (fun '(i, entry) =>
            if truthy_id (Some (store_row_id i))
            then Some {| ce_entry := entry; ce_entry_id := Some (store_row_id i) |}
            else None)
         (imap pair combined) in
  ({| normalized_entries := combined;
      header_mapping :=
        {| hm_mapping := hm_mapping reprint_mapping ∪ hm_mapping new_visit_mapping;
           hm_missing :=
             remove_dups (hm_missing new_visit_mapping ++ hm_missing reprint_mapping);
           hm_extras :=
             remove_dups (hm_extras new_visit_mapping ++ hm_extras reprint_mapping) |};
      issues := issues;
      duplicate_reports :=
        (fun d => (dr_rule d, dr_score d,
                   from_option name "" (combined !! dr_entry d),
                   matched_name combined (dr_matched d)))
          <$> duplicate_reports_raw;
      summary := summary;
      batch_id := store_batch_id |},
   (entry_rows, match_rows),
   {| settings := settings self;
      existing_entries_cache := existing_entries_cache self ++ appended |}).

End Process.

(** *** export *)

(** The sort key of [export]; [split()[0]] raises on a name without any
    token. *)
Definition export_key (e : NormalizedEntry) : option (string * string) :=
  if truthy (name e) then
    match py_split (name e) with
    | [] => None
    | t :: ts => Some (py_lower t, py_lower (List.last ts t))
    end
  else Some ("", "").

Definition stamps_row (entry : NormalizedEntry) : dict :=
  [ ("Name", VStr (name entry)); ("Address", VStr (address entry));
    ("City", VStr (city entry)); ("State", VStr (state entry));
    ("Zip", VStr (zip_code entry)) ].

Definition combined_row (entry : NormalizedEntry) : dict :=
  [ ("Name", VStr (name entry)); ("Clinic Name", VStr (clinic_name entry));
    ("Address", VStr (address entry)); ("City", VStr (city entry));
    ("State", VStr (state entry)); ("Zip Code", VStr (zip_code entry));
    ("Heally Link", VStr (heally_link entry));
    ("Date and Time", VStr (format_datetime (date_time entry)));
    ("List Source", VStr (list_source entry));
    ("Duplicate?",
      default (VStr "No") (dict_get (normalized_payload entry) "duplicate")) ].

(** [export]: the rows of the stamps table and of the combined table, in
    the order they are written; [None] when computing a sort key raises. *)
Definition export (entries : list NormalizedEntry) : option (list dict * list dict) :=
  keyed ← mapM (fun e => k ← export_key e; Some (k, e)) entries;
  let entries_sorted := snd <$> py_sorted fst pair_leb keyed in
  Some (stamps_row <$> entries_sorted, combined_row <$> entries_sorted).

End Pipeline.

(** ** Vocabulary of the statements *)

(** A text that neither starts nor ends with a character of the set [p]. *)
Definition starts_clean (p : ascii -> bool) (l : list ascii) : Prop :=
  forall c, head l = Some c -> p c = false.

Definition spacefree (t : list ascii) : Prop :=
  Forall (fun c => Char.is_space c = false) t.
(** A token: a non-empty text without blanks. *)
Definition token_ok (t : list ascii) : Prop := t <> [] /\ spacefree t.
Global Instance spacefree_dec t : Decision (spacefree t).
Proof. unfold spacefree. apply _. Defined.
Global Instance token_ok_dec t : Decision (token_ok t).
Proof. unfold token_ok. apply _. Defined.
Definition commafree (l : list ascii) : Prop :=
  Forall (fun c => Char.not_comma c = true) l.


Definition no_comma (s : string) : Prop := commafree (chars s).









(** [x] is the first element of [l] that satisfies [P]. *)
Definition first_such {A : Type} (P : A -> bool) (l : list A) (x : A) : Prop :=
  exists l1 l2, l = l1 ++ x :: l2 /\ P x = true /\ Forall (fun y => P y = false) l1.

(** The key names of a persisted payload. *)
Definition payload_fields : list string :=
  ["name"; "clinic_name"; "address"; "city"; "state"; "zip"; "zip4";
   "heally_link"; "heally_id"; "date_time"; "list_source"; "duplicate"].

Section PipelineVocabulary.
Context `{Externals}.

(** The records of the history with the key of [entry], in order. *)
Definition key_matches (cache : list CachedEntry) (entry : NormalizedEntry)
    : list CachedEntry :=
  filter (fun c => normalized_key (ce_entry c) = normalized_key entry) cache.

(** Two states of one record: the fields that the matching rules read
    are never written by the passes. *)
Definition same_identity (a b : NormalizedEntry) : Prop :=
  name a = name b /\ address a = address b /\ city a = city b
  /\ state a = state b /\ zip_code a = zip_code b /\ heally_id a = heally_id b.






(** A name that [export] can sort: empty, or with a token. *)
Definition sortable_name (e : NormalizedEntry) : Prop :=
  name e = "" \/ py_split (name e) <> [].

(** A record whose payload has the persisted field names. *)
Definition has_payload_fields (e : NormalizedEntry) : Prop :=
  dict_keys (normalized_payload e) = payload_fields.
End PipelineVocabulary.

(** A concrete environment for examples: date-times are kept as text and
    no format parses, two texts are similar only when equal, and the ZIP
    table has two entries. *)
Definition demo_externals : Externals :=
  {| datetime := string;
     strptime := fun _ _ => None;
     localize := fun _ d => Some d;
     strftime := fun d _ => d;
     seq_ratio := fun a b => if bool_decide (a = b) then 1%Q else 0%Q;
     load_zip_db := {[ "90717" := ("Lomita", "CA"); "95966" := ("Oroville", "CA") ]} |}.

Definition demo_processor : @DataProcessor demo_externals :=
  {| settings := default_settings; existing_entries_cache := [] |}.

Definition demo_mapping : gmap string string :=
  {[ "name" := "name"; "clinic_name" := "clinic"; "address" := "address";
     "city" := "city"; "state" := "state"; "zip" := "zip";
     "date_time" := "datetime"; "heally_link" := "heally" ]}.

Definition demo_header_mapping : HeaderMappingResult :=
  {| hm_mapping := demo_mapping; hm_missing := []; hm_extras := [] |}.

Definition demo_row (name address : string) : dict :=
  [ ("name", VStr name); ("clinic", VStr "HappyMD"); ("address", VStr address);
    ("city", VStr "Lomita"); ("state", VStr "CA"); ("zip", VStr "90717");
    ("datetime", VStr "2025-02-07 16:07"); ("heally", VStr "") ].

(** The same row with a patient link. *)
Definition demo_linked_row (name address link : string) : dict :=
  [ ("name", VStr name); ("clinic", VStr "HappyMD"); ("address", VStr address);
    ("city", VStr "Lomita"); ("state", VStr "CA"); ("zip", VStr "90717");
    ("datetime", VStr "2025-02-07 16:07"); ("heally", VStr link) ].

Definition demo_entry (list_type name address : string)
    : @NormalizedEntry demo_externals :=
  normalize_row demo_processor list_type demo_mapping (demo_row name address).

Definition demo_linked_entry (name address link : string)
    : @NormalizedEntry demo_externals :=
  normalize_row demo_processor "new_visit" demo_mapping
    (demo_linked_row name address link).

(** A processor whose history holds one record, stored under the row
    identifier 7, with the patient identifier 1234567. *)
Definition demo_cached : @CachedEntry demo_externals :=
  {| ce_entry :=
       demo_linked_entry "John Smith" "12 Oak St"
         "https://getheally.com/super_admin/patient_users/1234567";
     ce_entry_id := Some 7%Z |}.

Definition demo_history : @DataProcessor demo_externals :=
  {| settings := default_settings; existing_entries_cache := [demo_cached] |}.


(** A record with the patient identifier of the history record and
    another key. *)
Definition demo_same_id_entry : @NormalizedEntry demo_externals :=
  demo_linked_entry "Jon Smyth" "99 Elm Rd" "patient 1234567".


(** The row identifiers that the store hands out in the examples. *)
Definition demo_row_id (i : nat) : Z := (Z.of_nat i + 10)%Z.

(** * Proofs *)

(** ** Characters and texts *)

Ltac ascii_cases c := destruct c as [[] [] [] [] [] [] [] []]; vm_compute; try done.

Lemma upper_lower c : Char.upper (Char.lower c) = Char.upper c.
Proof. ascii_cases c. Qed.

Lemma str_chars s : str (chars s) = s.
Proof. apply string_of_list_ascii_of_string. Qed.
Lemma chars_str l : chars (str l) = l.
Proof. apply list_ascii_of_string_of_list_ascii. Qed.
Lemma chars_inj s t : chars s = chars t -> s = t.
Proof. intros H. rewrite <- (str_chars s), <- (str_chars t). by rewrite H. Qed.
Lemma str_inj a b : str a = str b -> a = b.
Proof. intros H. rewrite <- (chars_str a), <- (chars_str b). by rewrite H. Qed.
Lemma chars_app s t : chars (s +:+ t) = chars s ++ chars t.
Proof. induction s as [|c s IH]; simpl; [done|]. by rewrite IH. Qed.
Lemma truthy_chars s : truthy s = Chars.nonempty (chars s).
Proof. by destruct s. Qed.

Lemma rep_eq n p : forall pos l caps k,
  Re.rep n p pos l caps k =
  if bool_decide (n <= length l)%nat && forallb p (take n l)
  then k (n + pos)%nat (drop n l) caps else None.
Proof.
  induction n as [|n IH]; intros pos l caps k.
  - cbn [Re.rep]. rewrite drop_0, take_0. rewrite bool_decide_true by lia. done.
  - destruct l as [|c l]; cbn [Re.rep].
    + rewrite bool_decide_false by (simpl; lia). done.
    + cbn [take forallb drop length]. destruct (p c); simpl.
      * rewrite IH. replace (n + S pos)%nat with (S (n + pos)) by lia.
        destruct (decide (n <= length l)%nat).
        -- rewrite !bool_decide_true by lia. done.
        -- rewrite !bool_decide_false by lia. done.
      * rewrite andb_false_r. done.
Qed.

(** ** Trimming and title case *)

Section Strip.
Variable p : ascii -> bool.

Lemma lstrip_starts_clean l : starts_clean p (Chars.lstrip p l).
Proof.
  induction l as [|x l IH]; intros c; simpl; [done|].
  destruct (p x) eqn:Hx; [apply IH|]. simpl. by intros [= <-].
Qed.


Lemma lstrip_nil l : Chars.lstrip p l = [] <-> Forall (fun c => p c = true) l.
Proof.
  induction l as [|x l IH]; simpl; [by split; auto|].
  destruct (p x) eqn:Hx.
  - rewrite IH. split; [by constructor|by inversion 1].
  - split; [done|]. inversion 1; congruence.
Qed.



Lemma rstrip_nil l : Chars.rstrip p l = [] <-> Forall (fun c => p c = true) l.
Proof.
  induction l as [|x l IH]; simpl; [by split; auto|].
  destruct (Chars.rstrip p l) as [|y r] eqn:Hr.
  - destruct (p x) eqn:Hx.
    + split; [|done]. intros _. constructor; [done|]. by apply IH.
    + split; [done|]. inversion 1; congruence.
  - split; [done|]. inversion 1 as [|?? _ Hl]. apply IH in Hl. done.
Qed.






Lemma strip_nil l : Chars.strip p l = [] <-> Forall (fun c => p c = true) l.
Proof.
  unfold Chars.strip. rewrite rstrip_nil. split.
  - intros Hall. destruct (Chars.lstrip p l) as [|x r] eqn:Hl; [by apply lstrip_nil|].
    pose proof (lstrip_starts_clean l) as Hs. rewrite Hl in Hs.
    inversion Hall; subst. specialize (Hs x eq_refl). congruence.
  - intros Hall. apply lstrip_nil in Hall. by rewrite Hall.
Qed.
End Strip.

Section StripMap.
Variables (p : ascii -> bool) (f : ascii -> ascii).
Hypothesis p_f : forall c, p (f c) = p c.



End StripMap.

(** title *)
Lemma title_go_length b l : length (Chars.title_go b l) = length l.
Proof. revert b; induction l as [|c l IH]; intros b; simpl; [done|]. by rewrite IH. Qed.





(** ** ZIP codes *)



Ltac digit_list l H :=
  repeat (destruct l as [|? l]; simpl in H; try lia).



Lemma str_app a b : str (a ++ b) = str a +:+ str b.
Proof. apply chars_inj. by rewrite chars_app, !chars_str. Qed.








Lemma truthy_true s : truthy s = true <-> s <> "".
Proof. unfold truthy. rewrite negb_true_iff, bool_decide_eq_false. done. Qed.
Lemma truthy_false s : truthy s = false <-> s = "".
Proof. unfold truthy. rewrite negb_false_iff, bool_decide_eq_true. done. Qed.







(** ** States *)






(** ** Splitting and joining *)
















(** ** Street addresses *)









(** ** Re-application of the normalisers *)










(** ** The comma pattern of names *)

Section Star.
Variable p : ascii -> bool.


Lemma star_none l pos caps k :
  (forall n, n <= length l -> k (pos + n)%nat (drop n l) caps = None) ->
  Re.star p pos l caps k = None.
Proof.
  revert pos. induction l as [|c l IH]; intros pos Hk.
  - simpl. specialize (Hk 0%nat). rewrite Nat.add_0_r in Hk. apply Hk. simpl; lia.
  - simpl. assert (H0 : k pos (c :: l) caps = None).
    { specialize (Hk 0%nat). rewrite Nat.add_0_r in Hk. apply Hk. simpl; lia. }
    rewrite H0. rewrite IH; [by destruct (p c)|].
    intros n Hn. specialize (Hk (S n)). simpl in Hk.
    replace (S pos + n)%nat with (pos + S n)%nat by lia. apply Hk. lia.
Qed.


Lemma group_plus_none name l pos caps (k : Re.cont) :
  (forall pos' l' caps', (forall c, head l' = Some c -> p c = true) -> k pos' l' caps' = None) ->
  Forall (fun c => p c = true) l ->
  Re.exec (Re.Group name (Re.Plus p)) pos l caps k = None.
Proof.
  intros Hk Hl. cbn [Re.exec Re.rep]. destruct l as [|c l]; [done|].
  inversion Hl as [|?? Hc Hl']; subst. rewrite Hc.
  apply star_none. intros n Hn. apply Hk.
  intros d Hd. pose proof (Forall_drop _ n _ Hl') as Hdrop.
  destruct (drop n l); [done|]. simpl in Hd. injection Hd as ->.
  by inversion Hdrop.
Qed.
End Star.



Lemma exec_Seq r1 r2 pos l caps k :
  Re.exec (Re.Seq r1 r2) pos l caps k
  = Re.exec r1 pos l caps (fun pos' l' caps' => Re.exec r2 pos' l' caps' k).
Proof. done. Qed.
Lemma exec_Bol l caps k : Re.exec Re.Bol 0 l caps k = k 0%nat l caps.
Proof. done. Qed.
Lemma exec_Class_miss p pos l caps k :
  (forall c, head l = Some c -> p c = false) -> Re.exec (Re.Class p) pos l caps k = None.
Proof.
  intros Hc. cbn [Re.exec Re.rep]. destruct l as [|c l]; [done|].
  by rewrite (Hc c eq_refl).
Qed.


(** A text without any comma. *)
Lemma NAME_COMMA_RE_no_comma l :
  commafree l -> Re.exec NAME_COMMA_RE 0 l [] Re.accept = None.
Proof.
  intros Hl. unfold NAME_COMMA_RE. rewrite exec_Seq, exec_Bol. rewrite exec_Seq.
  apply group_plus_none; [|done].
  intros pos' l' caps' Hh. rewrite exec_Seq. apply exec_Class_miss.
  intros c Hc. specialize (Hh c Hc). unfold Char.not_comma in Hh.
  by destruct (Char.is_comma c).
Qed.

(** ** Names *)



Lemma normalize_name_no_match s :
  py_strip s <> "" -> Re.match_ NAME_COMMA_RE (py_strip s) = None ->
  normalize_name s = (py_join " " (py_title <$> py_split (py_strip s)), []).
Proof.
  intros Hs Hm. unfold normalize_name. apply truthy_true in Hs. by rewrite Hs, Hm.
Qed.












Lemma normalize_name_plain s :
  py_strip s <> "" -> no_comma (py_strip s) ->
  normalize_name s = (py_join " " (py_title <$> py_split (py_strip s)), []).
Proof.
  intros Hne Hc. apply normalize_name_no_match; [done|].
  by apply NAME_COMMA_RE_no_comma.
Qed.

(** ** Sorting *)

Section SortedFacts.
Context {A K : Type} `{EqDecision K} (key : A -> K) (leb : K -> K -> bool).
Hypothesis leb_total : forall a b, leb a b = true \/ leb b a = true.
Hypothesis leb_trans : forall a b c, leb a b = true -> leb b c = true -> leb a c = true.

Lemma insert_sorted_perm x l : insert_sorted key leb x l ≡ₚ x :: l.
Proof.
  induction l as [|y l IH]; simpl; [done|].
  destruct (leb (key x) (key y)); [done|].
  rewrite IH. apply Permutation_swap.
Qed.

Lemma py_sorted_perm l : py_sorted key leb l ≡ₚ l.
Proof.
  induction l as [|x l IH]; simpl; [done|].
  rewrite insert_sorted_perm. by rewrite IH.
Qed.





End SortedFacts.






(** [sorted(set(l))] *)
Lemma py_sorted_set_elem x l : x ∈ py_sorted_set l <-> x ∈ l.
Proof.
  unfold py_sorted_set. rewrite (py_sorted_perm id String.leb). apply elem_of_remove_dups.
Qed.



Lemma py_sorted_set_nil l : py_sorted_set l = [] <-> l = [].
Proof.
  split; [|by intros ->]. intros E. destruct l as [|x l]; [done|].
  assert (x ∈ py_sorted_set (x :: l)) as Hx by (apply py_sorted_set_elem; left).
  rewrite E in Hx. by apply elem_of_nil in Hx.
Qed.

(** ** Reasons of an address *)














Lemma str_app2 a b : str a +:+ str b = str (a ++ b).
Proof. by rewrite str_app. Qed.





(** ** Rows *)

Section RowFacts.
Context `{Externals}.

(** The fields of a normalised row that the status depends on. *)
Lemma normalize_row_fields self list_type mapping raw :
  let e := normalize_row self list_type mapping raw in
  exists reasons,
    name e = (normalize_name (field_text raw (mapping !! "name"))).1
    /\ address e =
       avr_address
         (validate_and_normalize_address load_zip_db
            (field_text raw (mapping !! "address"))
            (Some (field_text raw (mapping !! "city")))
            (Some (field_text raw (mapping !! "state")))
            (Some (field_text raw (mapping !! "zip"))))
    /\ (validation_status e, uncertainty_reasons e) =
       (if negb (truthy (name e)) || negb (truthy (address e))
        then ("rejected", py_sorted_set (reasons ++ ["missing_core_fields"]))
        else (match reasons with [] => "ok" | _ => "attention" end,
              py_sorted_set reasons))
    /\ dict_keys (normalized_payload e)
       = ["name"; "clinic_name"; "address"; "city"; "state"; "zip"; "zip4";
          "heally_link"; "heally_id"; "date_time"; "list_source"]
    /\ list_source e = list_source_of list_type.
Proof.
  unfold normalize_row.
  generalize (validate_and_normalize_address load_zip_db
            (field_text raw (mapping !! "address"))
            (Some (field_text raw (mapping !! "city")))
            (Some (field_text raw (mapping !! "state")))
            (Some (field_text raw (mapping !! "zip")))).
  intros ar.
  destruct (normalize_name (field_text raw (mapping !! "name"))) as [nn nr].
  destruct (extract_heally _ raw) as [[hl hid] hr].
  destruct (parse_datetime _ _) as [dt dr].
  cbn zeta.
  exists (nr ++ avr_reasons ar ++ hr ++ dr).
  destruct (negb (truthy nn) || negb (truthy (avr_address ar))) eqn:Hrej;
    cbn [name address validation_status uncertainty_reasons normalized_payload
           list_source fst snd]; rewrite Hrej; done.
Qed.

Lemma normalize_row_status self list_type mapping raw :
  let e := normalize_row self list_type mapping raw in
  (validation_status e = "rejected" <-> name e = "" \/ address e = "")
  /\ (validation_status e = "rejected" ->
      "missing_core_fields" ∈ uncertainty_reasons e)
  /\ (validation_status e = "attention" <->
      uncertainty_reasons e <> [] /\ name e <> "" /\ address e <> "")
  /\ (validation_status e = "ok" <-> uncertainty_reasons e = []).
Proof.
  intros e.
  destruct (normalize_row_fields self list_type mapping raw)
    as (reasons & _ & _ & Hst & _).
  fold e in Hst.
  destruct (truthy (name e)) eqn:Hn; destruct (truthy (address e)) eqn:Ha;
    cbn [negb orb] in Hst; injection Hst as Hs Hr; rewrite Hs, Hr;
    rewrite ?truthy_true in *; rewrite ?truthy_false in *.
  - destruct reasons as [|r rs].
    + repeat split; try done; try (intros [? | ?]; done); try (by intros [? _]).
    + assert (py_sorted_set (r :: rs) <> []) by (by rewrite py_sorted_set_nil).
      repeat split; try done; try (intros [? | ?]; done).
  - assert (py_sorted_set (reasons ++ ["missing_core_fields"]) <> []).
    { rewrite py_sorted_set_nil. by destruct reasons. }
    repeat split; try done; auto.
    + intros _. apply py_sorted_set_elem. rewrite elem_of_app, list_elem_of_singleton. auto.
    + by intros (_ & _ & ?).
  - assert (py_sorted_set (reasons ++ ["missing_core_fields"]) <> []).
    { rewrite py_sorted_set_nil. by destruct reasons. }
    repeat split; try done; auto.
    + intros _. apply py_sorted_set_elem. rewrite elem_of_app, list_elem_of_singleton. auto.
    + by intros (_ & ? & _).
  - assert (py_sorted_set (reasons ++ ["missing_core_fields"]) <> []).
    { rewrite py_sorted_set_nil. by destruct reasons. }
    repeat split; try done; auto.
    + intros _. apply py_sorted_set_elem. rewrite elem_of_app, list_elem_of_singleton. auto.
    + by intros (_ & ? & _).
Qed.

(** C1.  Every record that [normalize_rows] builds is [rejected] exactly
    when its normalised name or its normalised address is empty, and
    then carries the reason [missing_core_fields]; it is [attention]
    exactly when it has a reason while name and address are both
    non-empty; it is [ok] exactly when it has no reason. *)
Theorem normalize_rows_validation_status self rows list_type hm e :
  e ∈ (normalize_rows self rows list_type hm).1 ->
  (validation_status e = "rejected" <-> name e = "" \/ address e = "")
  /\ (validation_status e = "rejected" ->
      "missing_core_fields" ∈ uncertainty_reasons e)
  /\ (validation_status e = "attention" <->
      uncertainty_reasons e <> [] /\ name e <> "" /\ address e <> "")
  /\ (validation_status e = "ok" <-> uncertainty_reasons e = []).
Proof.
  unfold normalize_rows. cbn [fst]. intros He.
  apply list_elem_of_fmap in He as (raw & -> & _).
  apply normalize_row_status.
Qed.

End RowFacts.

(** ** Dictionaries *)

Lemma dict_get_set_eq d k v : dict_get (dict_set d k v) k = Some v.
Proof.
  induction d as [|[k' v'] d IH]; simpl.
  - by rewrite bool_decide_true.
  - destruct (decide (k' = k)) as [->|Hne].
    + rewrite bool_decide_true by done. simpl. by rewrite bool_decide_true.
    + rewrite bool_decide_false by done. simpl. by rewrite bool_decide_false.
Qed.


Lemma dict_keys_set_in d k v : k ∈ dict_keys d -> dict_keys (dict_set d k v) = dict_keys d.
Proof.
  unfold dict_keys. induction d as [|[k0 v0] d IH]; simpl.
  - by intros ?%elem_of_nil.
  - intros Hin. destruct (decide (k0 = k)) as [->|Hne].
    + by rewrite bool_decide_true.
    + rewrite bool_decide_false by done. simpl. f_equal. apply IH.
      apply elem_of_cons in Hin as [?|?]; [congruence|done].
Qed.

Lemma dict_keys_set_notin d k v :
  k ∉ dict_keys d -> dict_keys (dict_set d k v) = dict_keys d ++ [k].
Proof.
  unfold dict_keys. induction d as [|[k0 v0] d IH]; simpl; [done|].
  intros Hnin. apply not_elem_of_cons in Hnin as [Hne Hnin].
  rewrite bool_decide_false by done. simpl. f_equal. by apply IH.
Qed.

Lemma dict_get_None d k : k ∉ dict_keys d -> dict_get d k = None.
Proof.
  unfold dict_keys. induction d as [|[k0 v0] d IH]; simpl; [done|].
  intros Hnin. apply not_elem_of_cons in Hnin as [Hne Hnin].
  rewrite bool_decide_false by done. by apply IH.
Qed.

(** ** First element of a list with a property *)

Lemma find_first_such {A} (P : A -> bool) l x :
  find P l = Some x <-> first_such P l x.
Proof.
  split.
  - induction l as [|y l IH]; simpl; [done|].
    destruct (P y) eqn:Hy.
    + intros [= ->]. exists [], l. by repeat split.
    + intros Hf. destruct (IH Hf) as (l1 & l2 & -> & Hx & Hl1).
      exists (y :: l1), l2. repeat split; [done|]. by constructor.
  - intros (l1 & l2 & -> & Hx & Hl1). induction Hl1 as [|y l1 Hy _ IH]; simpl.
    + by rewrite Hx.
    + by rewrite Hy.
Qed.

Lemma find_none_iff {A} (P : A -> bool) l :
  find P l = None <-> Forall (fun y => P y = false) l.
Proof.
  induction l as [|y l IH]; simpl; [by split|].
  destruct (P y) eqn:Hy.
  - split; [done|]. inversion 1; congruence.
  - rewrite IH. split; [by constructor|by inversion 1].
Qed.

Lemma first_such_unique {A} (P : A -> bool) l x y :
  first_such P l x -> first_such P l y -> x = y.
Proof.
  intros Hx%find_first_such Hy%find_first_such. congruence.
Qed.

Section DetectFacts.
Context `{Externals}.

Lemma existing_index_snoc cache c :
  existing_index (cache ++ [c])
  = <[normalized_key (ce_entry c) := c]> (existing_index cache).
Proof. unfold existing_index. by rewrite foldl_app. Qed.

(** The index answers with the last record of the history that has the
    key. *)
Lemma existing_index_lookup cache k :
  existing_index cache !! k
  = last (filter (fun c => normalized_key (ce_entry c) = k) cache).
Proof.
  induction cache as [|c cache IH] using rev_ind; [done|].
  rewrite existing_index_snoc, filter_app.
  destruct (decide (normalized_key (ce_entry c) = k)) as [Hk|Hk].
  - rewrite Hk, lookup_insert_eq.
    rewrite filter_cons_True by done. rewrite filter_nil.
    by rewrite last_snoc.
  - rewrite lookup_insert_ne by done.
    rewrite filter_cons_False by done. rewrite filter_nil, app_nil_r. done.
Qed.

Lemma is_duplicate_set_yes e :
  is_duplicate (payload_set e "duplicate" "Yes") = true.
Proof.
  unfold is_duplicate, payload_set. cbn [normalized_payload with_payload].
  rewrite dict_get_set_eq. by rewrite bool_decide_true.
Qed.

Lemma is_duplicate_set_no e :
  is_duplicate (payload_set e "duplicate" "No") = false.
Proof.
  unfold is_duplicate, payload_set. cbn [normalized_payload with_payload].
  rewrite dict_get_set_eq. by rewrite bool_decide_false.
Qed.

Lemma detect_one_exact self existing i entry c :
  existing !! normalized_key entry = Some c ->
  detect_one self existing i entry
  = ([report i "exact_key" 1 (MatchedHistory c) (ce_entry_id c)],
     payload_set entry "duplicate" "Yes").
Proof. intros Hc. unfold detect_one. by rewrite Hc. Qed.

Lemma detect_one_heally self existing i entry c :
  existing !! normalized_key entry = None ->
  truthy_opt (heally_id entry) = true ->
  first_such (fun c => same_heally_id entry (ce_entry c)) (existing_entries_cache self) c ->
  detect_one self existing i entry
  = ([report i "heally_id" 1 (MatchedHistory c) (ce_entry_id c)],
     payload_set entry "duplicate" "Yes").
Proof.
  intros Hk Hid Hc%find_first_such. unfold detect_one.
  rewrite Hk, Hid, Hc. by rewrite is_duplicate_set_yes.
Qed.

Lemma detect_one_no_id self existing i entry :
  existing !! normalized_key entry = None ->
  truthy_opt (heally_id entry) = false
  \/ Forall (fun c => same_heally_id entry (ce_entry c) = false)
       (existing_entries_cache self) ->
  detect_one self existing i entry
  = if is_duplicate entry then ([], entry)
    else
      match find (fun c => fuzzy_hit self entry (ce_entry c))
              (existing_entries_cache self) with
      | Some c =>
          ([report i "fuzzy" (fuzzy_match_score entry (ce_entry c))
              (MatchedHistory c) (ce_entry_id c)],
           payload_set entry "duplicate" "Yes")
      | None => ([], payload_set entry "duplicate" "No")
      end.
Proof.
  intros Hk Hid. unfold detect_one. rewrite Hk.
  assert ((if truthy_opt (heally_id entry)
           then match find (fun cached => same_heally_id entry (ce_entry cached))
                        (existing_entries_cache self) with
                | Some cached =>
                    ([report i "heally_id" 1 (MatchedHistory cached) (ce_entry_id cached)],
                     payload_set entry "duplicate" "Yes")
                | None => ([], entry)
                end
           else ([], entry)) = ([], entry)) as ->.
  { destruct Hid as [-> | Hall]; [done|].
    apply find_none_iff in Hall. rewrite Hall. by destruct (truthy_opt _). }
  destruct (is_duplicate entry) eqn:Hd; [done|].
  destruct (find _ _) as [c|]; cbn [app].
  - by rewrite is_duplicate_set_yes.
  - by rewrite Hd.
Qed.

Lemma detect_one_reports self existing i entry :
  let r := detect_one self existing i entry in
  (length r.1 <= 1)%nat
  /\ Forall (fun d => dr_entry d = i) r.1
  /\ (r.1 <> [] -> is_duplicate r.2 = true)
  /\ (r.1 = [] -> is_duplicate entry = false ->
      dict_get (normalized_payload r.2) "duplicate" = Some (VStr "No")).
Proof.
  assert (Hfinish : forall (rs : list DuplicateReport) (e' : NormalizedEntry),
             (rs = [] /\ (is_duplicate entry = false -> e' = payload_set entry "duplicate" "No")
              \/ (exists d, rs = [d] /\ dr_entry d = i
                            /\ e' = payload_set entry "duplicate" "Yes")) ->
             (length rs <= 1)%nat
             /\ Forall (fun d => dr_entry d = i) rs
             /\ (rs <> [] -> is_duplicate e' = true)
             /\ (rs = [] -> is_duplicate entry = false ->
                 dict_get (normalized_payload e') "duplicate" = Some (VStr "No"))).
  { intros rs e' [[-> He] | (d & -> & Hd & ->)].
    - repeat split; [simpl; lia|constructor|done|].
      intros _ Hnd. rewrite (He Hnd). unfold payload_set.
      cbn [normalized_payload with_payload]. apply dict_get_set_eq.
    - repeat split; [simpl; lia|by repeat constructor| |done].
      intros _. apply is_duplicate_set_yes. }
  intros r. apply Hfinish. subst r. unfold detect_one.
  destruct (existing !! normalized_key entry) as [c|].
  { right. eexists. by repeat split. }
  destruct (truthy_opt (heally_id entry));
    [destruct (find (fun cached => same_heally_id entry (ce_entry cached)) _) as [c|]|].
  - rewrite is_duplicate_set_yes. right. eexists. by repeat split.
  - destruct (is_duplicate entry) eqn:Hd; cbn [fst snd]; [by left|].
    destruct (find _ _) as [c|]; cbn [app fst snd].
    + rewrite is_duplicate_set_yes. right. eexists. by repeat split.
    + rewrite Hd. by left.
  - destruct (is_duplicate entry) eqn:Hd; cbn [fst snd]; [by left|].
    destruct (find _ _) as [c|]; cbn [app fst snd].
    + rewrite is_duplicate_set_yes. right. eexists. by repeat split.
    + rewrite Hd. by left.
Qed.
End DetectFacts.

Section DetectAll.
Context `{Externals}.

Lemma filter_all {A} (P : A -> Prop) `{forall x, Decision (P x)} l :
  Forall P l -> filter P l = l.
Proof.
  induction 1 as [|x l Hx _ IH]; [done|]. by rewrite filter_cons_True, IH.
Qed.

Lemma filter_none {A} (P : A -> Prop) `{forall x, Decision (P x)} l :
  Forall (fun x => ~ P x) l -> filter P l = [].
Proof.
  induction 1 as [|x l Hx _ IH]; [done|]. by rewrite filter_cons_False.
Qed.

(** The reports of one position in the concatenation of the reports of
    all positions. *)
Lemma filter_concat_imap (g : nat -> NormalizedEntry -> list DuplicateReport)
    entries off i e :
  (forall j x, Forall (fun d => dr_entry d = off + j)%nat (g j x)) ->
  entries !! i = Some e ->
  filter (fun d => dr_entry d = (off + i)%nat) (concat (imap g entries)) = g i e.
Proof.
  revert g off i. induction entries as [|x entries IH]; intros g off i Hg Hi; [done|].
  rewrite imap_cons. cbn [concat]. rewrite filter_app.
  destruct i as [|i].
  - injection Hi as ->. rewrite filter_all by apply Hg.
    rewrite filter_none; [by rewrite app_nil_r|].
    apply Forall_concat. apply Forall_forall. intros rs Hrs.
    apply elem_of_lookup_imap in Hrs as (j & y & -> & _).
    eapply Forall_impl; [apply (Hg (S j) y)|]. intros d Hd. simpl in *. lia.
  - rewrite filter_none.
    2:{ eapply Forall_impl; [apply (Hg 0%nat x)|]. intros d Hd. simpl in *. lia. }
    cbn [app]. replace (off + S i)%nat with (S off + i)%nat by lia.
    change (g (S i) e) with ((g ∘ S) i e).
    apply IH; [|done]. intros j y. unfold compose.
    eapply Forall_impl; [apply (Hg (S j) y)|]. intros d Hd. simpl in *. lia.
Qed.

Lemma detect_duplicates_at self entries i entry :
  entries !! i = Some entry ->
  let r := detect_one self (existing_index (existing_entries_cache self)) i entry in
  filter (fun d => dr_entry d = i) (detect_duplicates self entries).1 = r.1
  /\ (detect_duplicates self entries).2 !! i = Some r.2.
Proof.
  intros Hi r. unfold detect_duplicates. cbn [fst snd]. split.
  - rewrite fmap_imap.
    apply (filter_concat_imap
             (fun n => fst ∘ detect_one self (existing_index (existing_entries_cache self)) n)
             entries 0 i entry); [|done].
    intros j x. apply detect_one_reports.
  - rewrite list_lookup_fmap, list_lookup_imap, Hi. done.
Qed.

(** C2 (amended).  [detect_duplicates] treats the record at position
    [i] by the first rule that applies: the last record of the history
    with the same key gives [exact_key] and score 1; otherwise, for a
    record with an identifier, the first record of the history with this
    identifier gives [heally_id] and score 1; otherwise, for a record
    that is not already marked as a duplicate, the first record of the
    history whose fuzzy score reaches the threshold gives [fuzzy] and
    this score.  A record has at most one report; a record with a report
    is marked [Yes], and a record without one that was not already
    marked [Yes] is marked [No]. *)
Theorem detect_duplicates_rules self entries i entry :
  entries !! i = Some entry ->
  let cache := existing_entries_cache self in
  let mine := filter (fun d => dr_entry d = i) (detect_duplicates self entries).1 in
  exists entry',
    (detect_duplicates self entries).2 !! i = Some entry'
    /\ (length mine <= 1)%nat
    /\ (mine <> [] -> is_duplicate entry' = true)
    /\ (mine = [] -> is_duplicate entry = false ->
        dict_get (normalized_payload entry') "duplicate" = Some (VStr "No"))
    /\ (forall c,
          last (key_matches cache entry) = Some c ->
          mine = [report i "exact_key" 1 (MatchedHistory c) (ce_entry_id c)])
    /\ (forall c,
          key_matches cache entry = [] ->
          truthy_opt (heally_id entry) = true ->
          first_such (fun c => same_heally_id entry (ce_entry c)) cache c ->
          mine = [report i "heally_id" 1 (MatchedHistory c) (ce_entry_id c)])
    /\ (key_matches cache entry = [] ->
        truthy_opt (heally_id entry) = false
        \/ Forall (fun c => same_heally_id entry (ce_entry c) = false) cache ->
        is_duplicate entry = false ->
        (forall c,
            first_such (fun c => fuzzy_hit self entry (ce_entry c)) cache c ->
            mine = [report i "fuzzy" (fuzzy_match_score entry (ce_entry c))
                      (MatchedHistory c) (ce_entry_id c)])
        /\ (Forall (fun c => fuzzy_hit self entry (ce_entry c) = false) cache ->
            mine = []))
    /\ fuzzy_threshold default_settings == 0.92.
Proof.
  intros Hi cache mine.
  destruct (detect_duplicates_at self entries i entry Hi) as [Hmine Hmarked].
  fold mine in Hmine.
  set (existing := existing_index (existing_entries_cache self)) in *.
  exists (detect_one self existing i entry).2.
  destruct (detect_one_reports self existing i entry) as (Hlen & _ & Hyes & Hno).
  rewrite Hmine.
  split; [done|]. split; [done|]. split; [done|]. split; [done|].
  assert (Hidx : existing !! normalized_key entry = last (key_matches cache entry)).
  { apply existing_index_lookup. }
  split; [|split; [|split; [|reflexivity]]].
  - intros c Hc. rewrite Hc in Hidx. by rewrite (detect_one_exact _ _ _ _ _ Hidx).
  - intros c Hk Hid Hc. rewrite Hk in Hidx.
    by rewrite (detect_one_heally _ _ _ _ _ Hidx Hid Hc).
  - intros Hk Hid Hd. rewrite Hk in Hidx.
    rewrite (detect_one_no_id _ _ _ _ Hidx Hid), Hd. split.
    + intros c Hc%find_first_such. fold cache. by rewrite Hc.
    + intros Hall%find_none_iff. fold cache. by rewrite Hall.
Qed.
End DetectAll.

(** ** The batch pass *)

Section BatchFacts.
Context `{Externals}.

Global Instance same_identity_equiv : Equivalence same_identity.
Proof.
  split.
  - by repeat split.
  - intros a b (?&?&?&?&?&?). by repeat split.
  - intros a b c (?&?&?&?&?&?) (?&?&?&?&?&?). repeat split; congruence.
Qed.








End BatchFacts.

Section BatchFold.
Context `{Externals}.
Variable self : DataProcessor.
Variable entries : list NormalizedEntry.







End BatchFold.

(** ** The persisted payload *)

Section ProcessFacts.
Context `{Externals}.

Lemma detect_one_marked self existing i entry :
  is_duplicate entry = false ->
  exists v, (detect_one self existing i entry).2 = payload_set entry "duplicate" v.
Proof.
  intros Hd. unfold detect_one.
  destruct (existing !! normalized_key entry) as [c|]; [by eexists|].
  destruct (truthy_opt (heally_id entry));
    [destruct (find (fun cached => same_heally_id entry (ce_entry cached)) _) as [c|]|].
  - rewrite is_duplicate_set_yes. by eexists.
  - rewrite Hd. destruct (find _ _) as [c|]; cbn [snd].
    + rewrite is_duplicate_set_yes. by eexists.
    + rewrite Hd. by eexists.
  - rewrite Hd. destruct (find _ _) as [c|]; cbn [snd].
    + rewrite is_duplicate_set_yes. by eexists.
    + rewrite Hd. by eexists.
Qed.

Lemma normalize_row_fresh self list_type mapping raw :
  let e := normalize_row self list_type mapping raw in
  is_duplicate e = false
  /\ dict_keys (normalized_payload (payload_set e "duplicate" "Yes")) = payload_fields
  /\ forall v, has_payload_fields (payload_set e "duplicate" v).
Proof.
  intros e.
  destruct (normalize_row_fields self list_type mapping raw) as (_ & _ & _ & _ & Hk & _).
  fold e in Hk.
  assert (Hnin : "duplicate" ∉ dict_keys (normalized_payload e)).
  { rewrite Hk. intros Hin. by repeat (apply elem_of_cons in Hin as [?|Hin]; [done|]);
      apply elem_of_nil in Hin. }
  assert (Hall : forall v, has_payload_fields (payload_set e "duplicate" v)).
  { intros v. unfold has_payload_fields, payload_set.
    cbn [normalized_payload with_payload].
    rewrite dict_keys_set_notin by done. by rewrite Hk. }
  split; [|split; [apply Hall|done]].
  unfold is_duplicate. rewrite dict_get_None by done. by rewrite bool_decide_false.
Qed.

Lemma payload_set_fields e k v :
  k ∈ payload_fields -> has_payload_fields e -> has_payload_fields (payload_set e k v).
Proof.
  unfold has_payload_fields, payload_set. cbn [normalized_payload with_payload].
  intros Hk He. rewrite dict_keys_set_in; [done|]. by rewrite He.
Qed.

Lemma promote_fields e : has_payload_fields e -> has_payload_fields (promote e).
Proof.
  intros He. unfold promote.
  change (has_payload_fields
            (payload_set (payload_set e "duplicate" "Yes") "list_source" "Both Lists")).
  apply payload_set_fields; [unfold payload_fields; rewrite !elem_of_cons; auto 20|].
  apply payload_set_fields; [|done].
  unfold payload_fields. rewrite !elem_of_cons. auto 20.
Qed.

Lemma dedup_step_fields self st i :
  Forall has_payload_fields st.2 -> Forall has_payload_fields (dedup_step self st i).2.
Proof.
  destruct st as [duplicates batch]. cbn [snd]. intros Hb.
  unfold dedup_step, update_at.
  destruct (batch !! i) as [entry|]; [|done].
  destruct (scan_seen self batch entry (seq 0 i)) as [[[j rule] score]|]; cbn [snd].
  - apply Forall_alter; [|intros x _; apply promote_fields].
    apply Forall_alter; [done|]. intros x _. apply promote_fields.
  - destruct (is_duplicate entry); [done|].
    apply Forall_alter; [done|]. intros x _ Hx. apply payload_set_fields; [|done].
    unfold payload_fields. rewrite !elem_of_cons. auto 20.
Qed.

Lemma deduplicate_within_batch_fields self entries :
  Forall has_payload_fields entries ->
  Forall has_payload_fields (deduplicate_within_batch self entries).2.
Proof.
  intros He. unfold deduplicate_within_batch.
  generalize (seq 0 (length entries)). intros idx.
  assert (Hgen : forall st, Forall has_payload_fields st.2 ->
            Forall has_payload_fields (foldl (dedup_step self) st idx).2).
  { induction idx as [|i idx IH]; intros st Hst; [done|].
    cbn [foldl]. apply IH. by apply dedup_step_fields. }
  by apply Hgen.
Qed.

Lemma detect_duplicates_fields self rows1 lt1 m1 rows2 lt2 m2 :
  Forall has_payload_fields
    (detect_duplicates self
       ((normalize_row self lt1 m1 <$> rows1) ++ (normalize_row self lt2 m2 <$> rows2))).2.
Proof.
  unfold detect_duplicates. cbn [snd].
  apply Forall_forall. intros e He.
  apply list_elem_of_fmap in He as ([rs e'] & -> & Hin).
  apply elem_of_lookup_imap in Hin as (i & x & Hx & Hi). cbn [snd].
  assert (Hfresh : exists lt m raw, x = normalize_row self lt m raw).
  { apply list_elem_of_lookup_2 in Hi. apply elem_of_app in Hi as [Hi|Hi];
      apply list_elem_of_fmap in Hi as (raw & -> & _); eauto. }
  destruct Hfresh as (lt & m & raw & ->).
  destruct (normalize_row_fresh self lt m raw) as (Hd & _ & Hall).
  destruct (detect_one_marked self (existing_index (existing_entries_cache self)) i _ Hd)
    as (v & Hv).
  assert (e' = (detect_one self (existing_index (existing_entries_cache self)) i
                  (normalize_row self lt m raw)).2) as -> by (by rewrite <- Hx).
  rewrite Hv. apply Hall.
Qed.

Lemma settle_list_source_fields e :
  has_payload_fields e -> has_payload_fields (settle_list_source e).
Proof. unfold settle_list_source. by destruct (_ && _). Qed.

(** The rows that [process] inserts into [entries]. *)
Lemma process_entry_rows bid rid self new_df re_df new_mapping re_mapping :
  (process bid rid self new_df re_df new_mapping re_mapping).1.2.1
  = entry_row
      <$> (settle_list_source
             <$> (deduplicate_within_batch self
                    (detect_duplicates self
                       ((normalize_row self "new_visit" (hm_mapping new_mapping) <$> new_df)
                        ++ (normalize_row self "reprint" (hm_mapping re_mapping) <$> re_df))).2).2).
Proof.
  unfold process, normalize_rows.
  destruct (detect_duplicates self _) as [cross combined] eqn:Hdet.
  destruct (deduplicate_within_batch self combined) as [batchd combined'] eqn:Hded.
  cbn [fst snd]. by rewrite Hded.
Qed.

(** C4 (amended).  The payload of every record that [process] persists
    has exactly the field names [name], [clinic_name], [address],
    [city], [state], [zip], [zip4], [heally_link], [heally_id],
    [date_time], [list_source], [duplicate], in this order. *)
Theorem process_payload_fields bid rid self new_df re_df new_mapping re_mapping row :
  row ∈ (process bid rid self new_df re_df new_mapping re_mapping).1.2.1 ->
  dict_keys (er_normalized_payload row)
  = ["name"; "clinic_name"; "address"; "city"; "state"; "zip"; "zip4";
     "heally_link"; "heally_id"; "date_time"; "list_source"; "duplicate"].
Proof.
  rewrite process_entry_rows. intros Hrow.
  apply list_elem_of_fmap in Hrow as (e & -> & He).
  apply list_elem_of_fmap in He as (e' & -> & He').
  cbn [entry_row er_normalized_payload].
  apply settle_list_source_fields.
  pose proof (deduplicate_within_batch_fields self _
                (detect_duplicates_fields self new_df "new_visit" (hm_mapping new_mapping)
                   re_df "reprint" (hm_mapping re_mapping))) as Hall.
  rewrite Forall_forall in Hall. by apply Hall.
Qed.
End ProcessFacts.

(** ** Export *)

Section Decorate.
Context {A K : Type} (key : A -> K) (leb : K -> K -> bool).



End Decorate.




Section ExportFacts.
Context `{Externals}.


Lemma export_key_unsortable e :
  ~ sortable_name e -> export_key e = None.
Proof.
  unfold sortable_name, export_key. intros Hn.
  destruct (truthy (name e)) eqn:Ht.
  - destruct (py_split (name e)); [done|]. destruct Hn. by right.
  - apply truthy_false in Ht. destruct Hn. by left.
Qed.


Lemma export_unsortable entries :
  Exists (fun e => ~ sortable_name e) entries -> export entries = None.
Proof.
  intros Hex. unfold export.
  assert (Hm : mapM (fun e => k ← export_key e; Some (k, e)) entries = None).
  { apply mapM_None. eapply Exists_impl; [exact Hex|]. intros e He.
    by rewrite (export_key_unsortable e He). }
  by rewrite Hm.
Qed.

End ExportFacts.

(** ** The theorems at concrete rows *)

(** A row without a name is rejected, with the reason for it. *)
Lemma normalize_rows_validation_status_witness :
  validation_status (demo_entry "new_visit" "" "12 Oak St") = "rejected"
  /\ "missing_core_fields" ∈ uncertainty_reasons (demo_entry "new_visit" "" "12 Oak St").
Proof.
  destruct (normalize_rows_validation_status demo_processor
              [demo_row "" "12 Oak St"] "new_visit" demo_header_mapping
              (demo_entry "new_visit" "" "12 Oak St"))
    as (Hrejected & Hreason & _).
  { vm_compute. apply list_elem_of_here. }
  assert (Hr : validation_status (demo_entry "new_visit" "" "12 Oak St") = "rejected").
  { apply Hrejected. left. vm_compute. reflexivity. }
  split; [exact Hr | exact (Hreason Hr)].
Defined.



(** A record with the key of the history record is reported under
    [exact_key]. *)
Lemma detect_duplicates_rules_witness :
  filter (fun d => dr_entry d = 0%nat)
    (detect_duplicates demo_history [demo_entry "new_visit" "john smith" "12 oak st"]).1
  = [report 0 "exact_key" 1 (MatchedHistory demo_cached) (ce_entry_id demo_cached)].
Proof.
  destruct (detect_duplicates_rules demo_history
              [demo_entry "new_visit" "john smith" "12 oak st"] 0
              (demo_entry "new_visit" "john smith" "12 oak st") eq_refl)
    as (marked & _ & _ & _ & _ & Hexact & _).
  apply (Hexact demo_cached). vm_compute. reflexivity.
Defined.

(** The identifier rule answers [heally_id], not [external_id]. *)
Lemma detect_duplicates_rule_name_counterexample :
  key_matches (existing_entries_cache demo_history) demo_same_id_entry = []
  /\ heally_id demo_same_id_entry = Some "1234567"
  /\ heally_id (ce_entry demo_cached) = Some "1234567"
  /\ dr_rule <$> (detect_duplicates demo_history [demo_same_id_entry]).1 = ["heally_id"]
  /\ dr_rule <$> (detect_duplicates demo_history [demo_same_id_entry]).1 <> ["external_id"].
Proof. repeat split; by vm_compute. Qed.



(** The payload of the first row that [process] writes for two lists of
    one row each. *)
Lemma process_payload_fields_witness :
  exists row,
    (process 1 demo_row_id demo_processor
       [demo_row "john smith" "12 oak st"] [demo_row "Ann Lee" "5 Elm Rd"]
       demo_header_mapping demo_header_mapping).1.2.1 !! 0%nat = Some row
    /\ dict_keys (er_normalized_payload row)
       = ["name"; "clinic_name"; "address"; "city"; "state"; "zip"; "zip4";
          "heally_link"; "heally_id"; "date_time"; "list_source"; "duplicate"].
Proof.
  eexists. split; [vm_compute; reflexivity|].
  apply (process_payload_fields 1 demo_row_id demo_processor
           [demo_row "john smith" "12 oak st"] [demo_row "Ann Lee" "5 Elm Rd"]
           demo_header_mapping demo_header_mapping).
  vm_compute. apply list_elem_of_here.
Defined.

(** The payload has the fields [heally_link] and [heally_id], and no
    field [external_link] or [external_id]. *)
Lemma process_payload_fields_counterexample :
  (fun row => dict_keys (er_normalized_payload row))
    <$> (process 1 demo_row_id demo_processor
           [demo_row "john smith" "12 oak st"] []
           demo_header_mapping demo_header_mapping).1.2.1
  = [["name"; "clinic_name"; "address"; "city"; "state"; "zip"; "zip4";
      "heally_link"; "heally_id"; "date_time"; "list_source"; "duplicate"]]
  /\ (fun row => dict_keys (er_normalized_payload row))
       <$> (process 1 demo_row_id demo_processor
              [demo_row "john smith" "12 oak st"] []
              demo_header_mapping demo_header_mapping).1.2.1
     <> [["name"; "clinic_name"; "address"; "city"; "state"; "zip"; "zip4";
          "external_link"; "external_id"; "date_time"; "list_source"; "duplicate"]].
Proof. split; by vm_compute. Qed.


